(** * Rustdoc implementors tables: [trait.Lower.js] and [part_000]

    Each of the two source files is one immediately-invoked function
    expression:

      (function() {var implementors = { ...literal table... };
       if (window.register_implementors) {
         window.register_implementors(implementors);
       } else {
         window.pending_implementors = implementors;
       }})()

    The development below embeds the ECMAScript values that can live in a
    property of the global object, the global object itself as a finite
    map, and the body of the function as a program in a small monad that
    threads the global object, records what the script does to its
    environment and propagates exceptions.

    Modelling conventions.
    - [window] is an ordinary object with writable data properties (no
      accessors, no proxies); reading an absent property yields
      [undefined].
    - Objects are compared by content; object identity is not modelled.
    - The body of [window.register_implementors] is not part of these
      files.  It is a parameter [host] of the semantics: a total function
      from the callee, the argument list and the global object at the time
      of the call to what the callee returns or raises and the global
      object it leaves behind. *)

From Stdlib Require Import ZArith Bool List Ascii String.
From Stdlib Require Import Floats.SpecFloat.
From stdpp Require Import gmap strings list.

(** ** ECMAScript values *)

(** A function object is known by its identity only. *)
Definition fn_ref := positive.

Unset Elimination Schemes.
Inductive value : Type :=
| VUndefined
| VNull
| VBool (b : bool)
| VNumber (x : spec_float)
| VBigInt (n : Z)
| VString (s : string)
| VSymbol (id : positive)
| VFunction (fn : fn_ref)
| VArray (elems : list value)
| VObject (props : list (string * value)).
Set Elimination Schemes.

(** ECMA-262 7.1.2: [undefined], [null], [false], [+0], [-0], [NaN], [0n]
    and the empty string are falsy, everything else is truthy. *)
Definition ToBoolean (v : value) : bool :=
  match v with
  | VUndefined | VNull => false
  | VBool b => b
  | VNumber (S754_zero _) | VNumber S754_nan => false
  | VNumber _ => true
  | VBigInt n => negb (Z.eqb n 0)
  | VString s => negb (String.eqb s "")
  | VSymbol _ | VFunction _ | VArray _ | VObject _ => true
  end.

(** ECMA-262 7.2.3: of the values above only function objects have a
    [[Call]] method. *)
Definition IsCallable (v : value) : bool :=
  match v with
  | VFunction _ => true
  | _ => false
  end.

(** *** Structural equality on values, as a boolean *)

Definition spec_float_eqb (x y : spec_float) : bool :=
  match x, y with
  | S754_zero s, S754_zero t => Bool.eqb s t
  | S754_infinity s, S754_infinity t => Bool.eqb s t
  | S754_nan, S754_nan => true
  | S754_finite s m e, S754_finite t n f =>
      Bool.eqb s t && Pos.eqb m n && Z.eqb e f
  | _, _ => false
  end.

Fixpoint value_eqb (a b : value) {struct a} : bool :=
  match a, b with
  | VUndefined, VUndefined => true
  | VNull, VNull => true
  | VBool x, VBool y => Bool.eqb x y
  | VNumber x, VNumber y => spec_float_eqb x y
  | VBigInt x, VBigInt y => Z.eqb x y
  | VString x, VString y => String.eqb x y
  | VSymbol x, VSymbol y => Pos.eqb x y
  | VFunction x, VFunction y => Pos.eqb x y
  | VArray xs, VArray ys =>
      (fix elems_eqb (xs ys : list value) {struct xs} : bool :=
         match xs, ys with
         | [], [] => true
         | x :: xs', y :: ys' => value_eqb x y && elems_eqb xs' ys'
         | _, _ => false
         end) xs ys
  | VObject ps, VObject qs =>
      (fix props_eqb (ps qs : list (string * value)) {struct ps} : bool :=
         match ps, qs with
         | [], [] => true
         | (k, x) :: ps', (l, y) :: qs' =>
             String.eqb k l && value_eqb x y && props_eqb ps' qs'
         | _, _ => false
         end) ps qs
  | _, _ => false
  end.

(** [occurs t v]: the value [t] is [v] itself or is stored somewhere inside
    [v] (an element of an array, the value of a property, at any depth). *)
Fixpoint occurs (t v : value) {struct v} : bool :=
  value_eqb t v ||
  match v with
  | VArray xs =>
      (fix in_elems (xs : list value) : bool :=
         match xs with
         | [] => false
         | x :: xs' => occurs t x || in_elems xs'
         end) xs
  | VObject ps =>
      (fix in_props (ps : list (string * value)) : bool :=
         match ps with
         | [] => false
         | (_, x) :: ps' => occurs t x || in_props ps'
         end) ps
  | _ => false
  end.

(** ** String literals of the source *)

(** The two characters that the JavaScript literals write as escapes: the
    double quote (backslash, quote) and the line feed (backslash, n). *)
Definition dquote : string := String "034"%char EmptyString.
Definition newline : string := String "010"%char EmptyString.

(** [html pieces] is the string whose JavaScript literal reads as the
    [pieces] with an escaped double quote between consecutive ones. *)
Definition html (pieces : list string) : string := String.concat dquote pieces.

(** [contains needle hay]: [needle] is a substring of [hay]. *)
Fixpoint contains (needle hay : string) : bool :=
  String.prefix needle hay ||
  match hay with
  | EmptyString => false
  | String _ hay' => contains needle hay'
  end.

(** ** The global object *)

Abbreviation window := (gmap string value).

(** [window.P] as an expression. *)
Definition Get (w : window) (P : string) : value := default VUndefined (w !! P).

(** ** Effects, completions and the script monad *)

(** What a script does to its environment: a write to a global, or the
    invocation of a function object (with [window] as receiver). *)
Inductive event : Type :=
| Assigned (P : string) (v : value)
| Invoked (fn : fn_ref) (args : list value).

(** [TypeError_not_a_function v] is the error of the call expression
    itself, raised because the callee [v] is not callable.  [Raised e] is
    whatever a called function raises; [e] may well be a TypeError object
    of the callee's own. *)
Inductive exception : Type :=
| TypeError_not_a_function (callee : value)
| Raised (e : value).

Inductive completion (A : Type) : Type :=
| Normal (a : A)
| Throw (e : exception).
Arguments Normal {A} a.
Arguments Throw {A} e.

Record run (A : Type) : Type := Run {
  effects : list event;
  outcome : completion A;
  final : window
}.
Arguments Run {A} _ _ _.
Arguments effects {A} _.
Arguments outcome {A} _.
Arguments final {A} _.

Definition js (A : Type) : Type := window -> run A.

Definition ret {A} (a : A) : js A := fun w => Run [] (Normal a) w.

Definition bind {A B} (m : js A) (k : A -> js B) : js B := fun w =>
  let r := m w in
  match outcome r with
  | Normal a =>
      let r' := k a (final r) in
      Run (effects r ++ effects r') (outcome r') (final r')
  | Throw e => Run (effects r) (Throw e) (final r)
  end.

Declare Scope js_scope.
Delimit Scope js_scope with js.
Notation "'let*' x ':=' m 'in' k" := (bind m (fun x => k))
  (at level 10, x name, m at level 100, k at level 200) : js_scope.

(** What the host's function does when called. *)
Inductive host_outcome : Type :=
| Returns (v : value)
| Raises (e : value).

Record host_result : Type := HostResult {
  host_outcome_of : host_outcome;
  host_after : window
}.

Section Script.

Variable host : fn_ref -> list value -> window -> host_result.

(** [window.P] *)
Definition get_global (P : string) : js value := fun w =>
  Run [] (Normal (Get w P)) w.

(** [window.P = v;] *)
Definition set_global (P : string) (v : value) : js unit := fun w =>
  Run [Assigned P v] (Normal tt) (<[P:=v]> w).

(** [window.P(args)]: the callee is read from the property, and a callee
    that is not callable raises a TypeError before anything is invoked. *)
Definition call_global (P : string) (args : list value) : js value := fun w =>
  match Get w P with
  | VFunction fn =>
      let h := host fn args w in
      match host_outcome_of h with
      | Returns v => Run [Invoked fn args] (Normal v) (host_after h)
      | Raises e => Run [Invoked fn args] (Throw (Raised e)) (host_after h)
      end
  | callee => Run [] (Throw (TypeError_not_a_function callee)) w
  end.

(** The body shared by both files, for the table bound to
    [var implementors]. *)
Definition iife (implementors : value) : js unit :=
  (let* c := get_global "register_implementors" in
   if ToBoolean c then
     let* _ := call_global "register_implementors" [implementors] in
     ret tt
   else
     set_global "pending_implementors" implementors)%js.

End Script.

Module trait_Lower_js.

(** [var implementors = {...}]: the object literal of trait.Lower.js, property by
    property in source order. *)
Definition implementors : value :=
  VObject [
    ("component_test_util", VArray [
       VArray [VString (html ["impl Lower for <a class="; "struct"; " href="; "component_test_util/struct.Float32.html"; " title="; "struct component_test_util::Float32"; ">Float32</a>"])];
       VArray [VString (html ["impl Lower for <a class="; "struct"; " href="; "component_test_util/struct.Float64.html"; " title="; "struct component_test_util::Float64"; ">Float64</a>"])]]);
    ("wasmtime", VArray []);
    ("wasmtime_wasi", VArray [
       VArray [VString (html ["impl Lower for <a class="; "enum"; " href="; "wasmtime_wasi/preview2/wasi/command/wasi/sockets/tcp/enum.ShutdownType.html"; " title="; "enum wasmtime_wasi::preview2::wasi::command::wasi::sockets::tcp::ShutdownType"; ">ShutdownType</a>"])];
       VArray [VString (html ["impl Lower for <a class="; "struct"; " href="; "wasmtime_wasi/preview2/wasi/command/wasi/sockets/udp/struct.Datagram.html"; " title="; "struct wasmtime_wasi::preview2::wasi::command::wasi::sockets::udp::Datagram"; ">Datagram</a>"])];
       VArray [VString (html ["impl Lower for <a class="; "enum"; " href="; "wasmtime_wasi/preview2/wasi/wasi/filesystem/filesystem/enum.Advice.html"; " title="; "enum wasmtime_wasi::preview2::wasi::wasi::filesystem::filesystem::Advice"; ">Advice</a>"])];
       VArray [VString (html ["impl Lower for <a class="; "struct"; " href="; "wasmtime_wasi/preview2/wasi/command/wasi/sockets/network/struct.Ipv6SocketAddress.html"; " title="; "struct wasmtime_wasi::preview2::wasi::command::wasi::sockets::network::Ipv6SocketAddress"; ">Ipv6SocketAddress</a>"])];
       VArray [VString (html ["impl Lower for <a class="; "struct"; " href="; "wasmtime_wasi/preview2/wasi/command/wasi/sockets/network/struct.Ipv4SocketAddress.html"; " title="; "struct wasmtime_wasi::preview2::wasi::command::wasi::sockets::network::Ipv4SocketAddress"; ">Ipv4SocketAddress</a>"])];
       VArray [VString (html ["impl Lower for <a class="; "enum"; " href="; "wasmtime_wasi/preview2/wasi/command/wasi/sockets/network/enum.IpSocketAddress.html"; " title="; "enum wasmtime_wasi::preview2::wasi::command::wasi::sockets::network::IpSocketAddress"; ">IpSocketAddress</a>"])];
       VArray [VString (html ["impl Lower for <a class="; "enum"; " href="; "wasmtime_wasi/preview2/wasi/wasi/filesystem/filesystem/enum.NewTimestamp.html"; " title="; "enum wasmtime_wasi::preview2::wasi::wasi::filesystem::filesystem::NewTimestamp"; ">NewTimestamp</a>"])];
       VArray [VString (html ["impl Lower for <a class="; "struct"; " href="; "wasmtime_wasi/preview2/wasi/command/wasi/clocks/wall_clock/struct.Datetime.html"; " title="; "struct wasmtime_wasi::preview2::wasi::command::wasi::clocks::wall_clock::Datetime"; ">Datetime</a>"])];
       VArray [VString (html ["impl Lower for <a class="; "enum"; " href="; "wasmtime_wasi/preview2/wasi/command/wasi/sockets/network/enum.IpAddressFamily.html"; " title="; "enum wasmtime_wasi::preview2::wasi::command::wasi::sockets::network::IpAddressFamily"; ">IpAddressFamily</a>"])];
       VArray [VString (html ["impl Lower for <a class="; "struct"; " href="; "wasmtime_wasi/preview2/wasi/wasi/filesystem/filesystem/struct.DescriptorStat.html"; " title="; "struct wasmtime_wasi::preview2::wasi::wasi::filesystem::filesystem::DescriptorStat"; ">DescriptorStat</a>"])];
       VArray [VString (html ["impl Lower for <a class="; "struct"; " href="; "wasmtime_wasi/preview2/wasi/wasi/filesystem/filesystem/struct.Modes.html"; " title="; "struct wasmtime_wasi::preview2::wasi::wasi::filesystem::filesystem::Modes"; ">Modes</a>"])];
       VArray [VString (html ["impl Lower for <a class="; "enum"; " href="; "wasmtime_wasi/preview2/wasi/wasi/filesystem/filesystem/enum.ErrorCode.html"; " title="; "enum wasmtime_wasi::preview2::wasi::wasi::filesystem::filesystem::ErrorCode"; ">ErrorCode</a>"])];
       VArray [VString (html ["impl Lower for <a class="; "struct"; " href="; "wasmtime_wasi/preview2/wasi/wasi/filesystem/filesystem/struct.DescriptorFlags.html"; " title="; "struct wasmtime_wasi::preview2::wasi::wasi::filesystem::filesystem::DescriptorFlags"; ">DescriptorFlags</a>"])];
       VArray [VString (html ["impl Lower for <a class="; "struct"; " href="; "wasmtime_wasi/preview2/wasi/wasi/filesystem/filesystem/struct.OpenFlags.html"; " title="; "struct wasmtime_wasi::preview2::wasi::wasi::filesystem::filesystem::OpenFlags"; ">OpenFlags</a>"])];
       VArray [VString (html ["impl Lower for <a class="; "enum"; " href="; "wasmtime_wasi/preview2/wasi/command/wasi/sockets/network/enum.IpAddress.html"; " title="; "enum wasmtime_wasi::preview2::wasi::command::wasi::sockets::network::IpAddress"; ">IpAddress</a>"])];
       VArray [VString (html ["impl Lower for <a class="; "struct"; " href="; "wasmtime_wasi/preview2/wasi/wasi/filesystem/filesystem/struct.DirectoryEntry.html"; " title="; "struct wasmtime_wasi::preview2::wasi::wasi::filesystem::filesystem::DirectoryEntry"; ">DirectoryEntry</a>"])];
       VArray [VString (html ["impl Lower for <a class="; "struct"; " href="; "wasmtime_wasi/preview2/wasi/wasi/clocks/wall_clock/struct.Datetime.html"; " title="; "struct wasmtime_wasi::preview2::wasi::wasi::clocks::wall_clock::Datetime"; ">Datetime</a>"])];
       VArray [VString (html ["impl Lower for <a class="; "struct"; " href="; "wasmtime_wasi/preview2/wasi/wasi/clocks/timezone/struct.TimezoneDisplay.html"; " title="; "struct wasmtime_wasi::preview2::wasi::wasi::clocks::timezone::TimezoneDisplay"; ">TimezoneDisplay</a>"])];
       VArray [VString (html ["impl Lower for <a class="; "enum"; " href="; "wasmtime_wasi/preview2/wasi/wasi/filesystem/filesystem/enum.AccessType.html"; " title="; "enum wasmtime_wasi::preview2::wasi::wasi::filesystem::filesystem::AccessType"; ">AccessType</a>"])];
       VArray [VString (html ["impl Lower for <a class="; "struct"; " href="; "wasmtime_wasi/preview2/wasi/wasi/io/streams/struct.StreamError.html"; " title="; "struct wasmtime_wasi::preview2::wasi::wasi::io::streams::StreamError"; ">StreamError</a>"])];
       VArray [VString (html ["impl Lower for <a class="; "enum"; " href="; "wasmtime_wasi/preview2/wasi/command/wasi/sockets/network/enum.ErrorCode.html"; " title="; "enum wasmtime_wasi::preview2::wasi::command::wasi::sockets::network::ErrorCode"; ">ErrorCode</a>"])];
       VArray [VString (html ["impl Lower for <a class="; "struct"; " href="; "wasmtime_wasi/preview2/wasi/wasi/filesystem/filesystem/struct.PathFlags.html"; " title="; "struct wasmtime_wasi::preview2::wasi::wasi::filesystem::filesystem::PathFlags"; ">PathFlags</a>"])];
       VArray [VString (html ["impl Lower for <a class="; "enum"; " href="; "wasmtime_wasi/preview2/wasi/wasi/filesystem/filesystem/enum.DescriptorType.html"; " title="; "enum wasmtime_wasi::preview2::wasi::wasi::filesystem::filesystem::DescriptorType"; ">DescriptorType</a>"])]]);
    ("wasmtime_wasi_http", VArray [
       VArray [VString (html ["impl Lower for <a class="; "struct"; " href="; "wasmtime_wasi_http/wasi/io/streams/struct.StreamError.html"; " title="; "struct wasmtime_wasi_http::wasi::io::streams::StreamError"; ">StreamError</a>"])];
       VArray [VString (html ["impl Lower for <a class="; "struct"; " href="; "wasmtime_wasi_http/wasi/http/types/struct.RequestOptions.html"; " title="; "struct wasmtime_wasi_http::wasi::http::types::RequestOptions"; ">RequestOptions</a>"])];
       VArray [VString (html ["impl Lower for <a class="; "enum"; " href="; "wasmtime_wasi_http/wasi/http/types/enum.Error.html"; " title="; "enum wasmtime_wasi_http::wasi::http::types::Error"; ">Error</a>"])];
       VArray [VString (html ["impl Lower for <a class="; "enum"; " href="; "wasmtime_wasi_http/wasi/http/types/enum.Method.html"; " title="; "enum wasmtime_wasi_http::wasi::http::types::Method"; ">Method</a>"])];
       VArray [VString (html ["impl Lower for <a class="; "enum"; " href="; "wasmtime_wasi_http/wasi/http/types/enum.Scheme.html"; " title="; "enum wasmtime_wasi_http::wasi::http::types::Scheme"; ">Scheme</a>"])];
       VArray [VString (html ["impl Lower for <a class="; "struct"; " href="; "wasmtime_wasi_http/wasi/clocks/timezone/struct.TimezoneDisplay.html"; " title="; "struct wasmtime_wasi_http::wasi::clocks::timezone::TimezoneDisplay"; ">TimezoneDisplay</a>"])];
       VArray [VString (html ["impl Lower for <a class="; "struct"; " href="; "wasmtime_wasi_http/wasi/clocks/wall_clock/struct.Datetime.html"; " title="; "struct wasmtime_wasi_http::wasi::clocks::wall_clock::Datetime"; ">Datetime</a>"])]]);
    ("wiggle", VArray [])
  ].

End trait_Lower_js.

Module part_000.

(** [var implementors = {...}]: the object literal of part_000, property by
    property in source order.  (In the stored copy of this file the closing
    parentheses of the function call are followed by a document-separator
    marker, which is not part of the script.) *)
Definition implementors : value :=
  VObject [
    ("cranelift_codegen", VArray [
       VArray [VString (html ["impl&lt;'f&gt; <a class="; "trait"; " href="; "https://doc.rust-lang.org/nightly/core/iter/traits/collect/trait.IntoIterator.html"; " title="; "trait core::iter::traits::collect::IntoIterator"; ">IntoIterator</a> for &amp;'f <a class="; "struct"; " href="; "cranelift_codegen/ir/layout/struct.Layout.html"; " title="; "struct cranelift_codegen::ir::layout::Layout"; ">Layout</a>"])]]);
    ("cranelift_entity", VArray [
       VArray [VString (html ["impl&lt;'a, K, V&gt; <a class="; "trait"; " href="; "https://doc.rust-lang.org/nightly/core/iter/traits/collect/trait.IntoIterator.html"; " title="; "trait core::iter::traits::collect::IntoIterator"; ">IntoIterator</a> for &amp;'a mut <a class="; "struct"; " href="; "cranelift_entity/struct.PrimaryMap.html"; " title="; "struct cranelift_entity::PrimaryMap"; ">PrimaryMap</a>&lt;K, V&gt;<span class="; "where fmt-newline"; (">where" +:+ newline +:+ "    K: <a class="); "trait"; " href="; "cranelift_entity/trait.EntityRef.html"; " title="; "trait cranelift_entity::EntityRef"; ">EntityRef</a>,</span>"])];
       VArray [VString (html ["impl&lt;K, V&gt; <a class="; "trait"; " href="; "https://doc.rust-lang.org/nightly/core/iter/traits/collect/trait.IntoIterator.html"; " title="; "trait core::iter::traits::collect::IntoIterator"; ">IntoIterator</a> for <a class="; "struct"; " href="; "cranelift_entity/struct.PrimaryMap.html"; " title="; "struct cranelift_entity::PrimaryMap"; ">PrimaryMap</a>&lt;K, V&gt;<span class="; "where fmt-newline"; (">where" +:+ newline +:+ "    K: <a class="); "trait"; " href="; "cranelift_entity/trait.EntityRef.html"; " title="; "trait cranelift_entity::EntityRef"; ">EntityRef</a>,</span>"])];
       VArray [VString (html ["impl&lt;'a, K, V&gt; <a class="; "trait"; " href="; "https://doc.rust-lang.org/nightly/core/iter/traits/collect/trait.IntoIterator.html"; " title="; "trait core::iter::traits::collect::IntoIterator"; ">IntoIterator</a> for &amp;'a mut <a class="; "struct"; " href="; "cranelift_entity/struct.BoxedSlice.html"; " title="; "struct cranelift_entity::BoxedSlice"; ">BoxedSlice</a>&lt;K, V&gt;<span class="; "where fmt-newline"; (">where" +:+ newline +:+ "    K: <a class="); "trait"; " href="; "cranelift_entity/trait.EntityRef.html"; " title="; "trait cranelift_entity::EntityRef"; ">EntityRef</a>,</span>"])];
       VArray [VString (html ["impl&lt;'a, K, V&gt; <a class="; "trait"; " href="; "https://doc.rust-lang.org/nightly/core/iter/traits/collect/trait.IntoIterator.html"; " title="; "trait core::iter::traits::collect::IntoIterator"; ">IntoIterator</a> for &amp;'a <a class="; "struct"; " href="; "cranelift_entity/struct.PrimaryMap.html"; " title="; "struct cranelift_entity::PrimaryMap"; ">PrimaryMap</a>&lt;K, V&gt;<span class="; "where fmt-newline"; (">where" +:+ newline +:+ "    K: <a class="); "trait"; " href="; "cranelift_entity/trait.EntityRef.html"; " title="; "trait cranelift_entity::EntityRef"; ">EntityRef</a>,</span>"])];
       VArray [VString (html ["impl&lt;'a, K, V&gt; <a class="; "trait"; " href="; "https://doc.rust-lang.org/nightly/core/iter/traits/collect/trait.IntoIterator.html"; " title="; "trait core::iter::traits::collect::IntoIterator"; ">IntoIterator</a> for &amp;'a <a class="; "struct"; " href="; "cranelift_entity/struct.BoxedSlice.html"; " title="; "struct cranelift_entity::BoxedSlice"; ">BoxedSlice</a>&lt;K, V&gt;<span class="; "where fmt-newline"; (">where" +:+ newline +:+ "    K: <a class="); "trait"; " href="; "cranelift_entity/trait.EntityRef.html"; " title="; "trait cranelift_entity::EntityRef"; ">EntityRef</a>,</span>"])];
       VArray [VString (html ["impl&lt;'a, K, V&gt; <a class="; "trait"; " href="; "https://doc.rust-lang.org/nightly/core/iter/traits/collect/trait.IntoIterator.html"; " title="; "trait core::iter::traits::collect::IntoIterator"; ">IntoIterator</a> for &amp;'a <a class="; "struct"; " href="; "cranelift_entity/struct.SparseMap.html"; " title="; "struct cranelift_entity::SparseMap"; ">SparseMap</a>&lt;K, V&gt;<span class="; "where fmt-newline"; (">where" +:+ newline +:+ "    K: <a class="); "trait"; " href="; "cranelift_entity/trait.EntityRef.html"; " title="; "trait cranelift_entity::EntityRef"; (">EntityRef</a>," +:+ newline +:+ "    V: <a class="); "trait"; " href="; "cranelift_entity/trait.SparseMapValue.html"; " title="; "trait cranelift_entity::SparseMapValue"; ">SparseMapValue</a>&lt;K&gt;,</span>"])]]);
    ("reactor_tests", VArray [
       VArray [VString (html ["impl <a class="; "trait"; " href="; "https://doc.rust-lang.org/nightly/core/iter/traits/collect/trait.IntoIterator.html"; " title="; "trait core::iter::traits::collect::IntoIterator"; ">IntoIterator</a> for <a class="; "struct"; " href="; "reactor_tests/wasi/filesystem/filesystem/struct.OpenFlags.html"; " title="; "struct reactor_tests::wasi::filesystem::filesystem::OpenFlags"; ">OpenFlags</a>"])];
       VArray [VString (html ["impl <a class="; "trait"; " href="; "https://doc.rust-lang.org/nightly/core/iter/traits/collect/trait.IntoIterator.html"; " title="; "trait core::iter::traits::collect::IntoIterator"; ">IntoIterator</a> for <a class="; "struct"; " href="; "reactor_tests/wasi/filesystem/filesystem/struct.Modes.html"; " title="; "struct reactor_tests::wasi::filesystem::filesystem::Modes"; ">Modes</a>"])];
       VArray [VString (html ["impl <a class="; "trait"; " href="; "https://doc.rust-lang.org/nightly/core/iter/traits/collect/trait.IntoIterator.html"; " title="; "trait core::iter::traits::collect::IntoIterator"; ">IntoIterator</a> for <a class="; "struct"; " href="; "reactor_tests/wasi/filesystem/filesystem/struct.DescriptorFlags.html"; " title="; "struct reactor_tests::wasi::filesystem::filesystem::DescriptorFlags"; ">DescriptorFlags</a>"])];
       VArray [VString (html ["impl <a class="; "trait"; " href="; "https://doc.rust-lang.org/nightly/core/iter/traits/collect/trait.IntoIterator.html"; " title="; "trait core::iter::traits::collect::IntoIterator"; ">IntoIterator</a> for <a class="; "struct"; " href="; "reactor_tests/wasi/filesystem/filesystem/struct.PathFlags.html"; " title="; "struct reactor_tests::wasi::filesystem::filesystem::PathFlags"; ">PathFlags</a>"])]]);
    ("wasi_snapshot_preview1", VArray [
       VArray [VString (html ["impl <a class="; "trait"; " href="; "https://doc.rust-lang.org/nightly/core/iter/traits/collect/trait.IntoIterator.html"; " title="; "trait core::iter::traits::collect::IntoIterator"; ">IntoIterator</a> for <a class="; "struct"; " href="; "wasi_snapshot_preview1/bindings/wasi/filesystem/filesystem/struct.DescriptorFlags.html"; " title="; "struct wasi_snapshot_preview1::bindings::wasi::filesystem::filesystem::DescriptorFlags"; ">DescriptorFlags</a>"])];
       VArray [VString (html ["impl <a class="; "trait"; " href="; "https://doc.rust-lang.org/nightly/core/iter/traits/collect/trait.IntoIterator.html"; " title="; "trait core::iter::traits::collect::IntoIterator"; ">IntoIterator</a> for <a class="; "struct"; " href="; "wasi_snapshot_preview1/bindings/wasi/filesystem/filesystem/struct.Modes.html"; " title="; "struct wasi_snapshot_preview1::bindings::wasi::filesystem::filesystem::Modes"; ">Modes</a>"])];
       VArray [VString (html ["impl <a class="; "trait"; " href="; "https://doc.rust-lang.org/nightly/core/iter/traits/collect/trait.IntoIterator.html"; " title="; "trait core::iter::traits::collect::IntoIterator"; ">IntoIterator</a> for <a class="; "struct"; " href="; "wasi_snapshot_preview1/bindings/wasi/filesystem/filesystem/struct.OpenFlags.html"; " title="; "struct wasi_snapshot_preview1::bindings::wasi::filesystem::filesystem::OpenFlags"; ">OpenFlags</a>"])];
       VArray [VString (html ["impl <a class="; "trait"; " href="; "https://doc.rust-lang.org/nightly/core/iter/traits/collect/trait.IntoIterator.html"; " title="; "trait core::iter::traits::collect::IntoIterator"; ">IntoIterator</a> for <a class="; "struct"; " href="; "wasi_snapshot_preview1/bindings/wasi/filesystem/filesystem/struct.PathFlags.html"; " title="; "struct wasi_snapshot_preview1::bindings::wasi::filesystem::filesystem::PathFlags"; ">PathFlags</a>"])]]);
    ("wasmtime_environ", VArray [])
  ].

End part_000.

(** ** The two files *)

Inductive source_file : Type :=
| Trait_Lower_js
| Part_000.

Definition implementors_of (f : source_file) : value :=
  match f with
  | Trait_Lower_js => trait_Lower_js.implementors
  | Part_000 => part_000.implementors
  end.

Section Evaluation.

Variable host : fn_ref -> list value -> window -> host_result.

(** Evaluating a file runs its function expression once. *)
Definition evaluate (f : source_file) : js unit :=
  iife host (implementors_of f).

(** Files are separate scripts evaluated one after the other on the same
    global object; an exception ends the script that raised it and the
    next script still runs. *)
Fixpoint load_all (fs : list source_file) (w : window) : window :=
  match fs with
  | [] => w
  | f :: fs' => load_all fs' (final (evaluate f w))
  end.

End Evaluation.

(** ** Shapes of a table *)

(** [property_of v name]: the value of the own property [name] of an object
    written as a literal (the last one wins when a name is repeated). *)
Fixpoint lookup_prop (name : string) (ps : list (string * value)) : option value :=
  match ps with
  | [] => None
  | (k, x) :: ps' =>
      match lookup_prop name ps' with
      | Some y => Some y
      | None => if String.eqb k name then Some x else None
      end
  end.

Definition property_of (v : value) (name : string) : option value :=
  match v with
  | VObject ps => lookup_prop name ps
  | _ => None
  end.

(** An implementor descriptor: text that starts with [impl], names the
    implemented trait before [ for ] and the implementing type after it,
    and links to at least one of them with an anchor element. *)
Definition is_descriptor (s : string) : bool :=
  String.prefix "impl" s && contains " for " s &&
  contains ("<a class=" +:+ dquote) s && contains "</a>" s.

(** One entry of a library's array, as the files write it: an array whose
    only element is the descriptor string. *)
Definition is_entry (e : value) : bool :=
  match e with
  | VArray [VString s] => is_descriptor s
  | _ => false
  end.

Definition is_entry_list (v : value) : bool :=
  match v with
  | VArray es => forallb is_entry es
  | _ => false
  end.

(** A table: an object whose property names are pairwise distinct and
    whose property values are arrays of entries. *)
Definition is_table (v : value) : bool :=
  match v with
  | VObject ps =>
      bool_decide (NoDup (map fst ps)) && forallb (fun p => is_entry_list (snd p)) ps
  | _ => false
  end.

(** ** Shape of a table, as a proposition *)

Definition table_shape (v : value) : Prop :=
  exists ps,
    v = VObject ps /\
    NoDup (map fst ps) /\
    forall lib x, In (lib, x) ps ->
      exists es, x = VArray es /\
        forall e, In e es -> exists s, e = VArray [VString s] /\ is_descriptor s = true.

(** The reading under which every entry of a library's array is itself a
    string. *)
Definition entries_are_strings (v : value) : Prop :=
  forall lib es e,
    property_of v lib = Some (VArray es) -> In e es -> exists s, e = VString s.

(** ** Induction on values *)

Section ValueInd.

Variable P : value -> Prop.
Hypothesis HUndefined : P VUndefined.
Hypothesis HNull : P VNull.
Hypothesis HBool : forall b, P (VBool b).
Hypothesis HNumber : forall x, P (VNumber x).
Hypothesis HBigInt : forall n, P (VBigInt n).
Hypothesis HString : forall s, P (VString s).
Hypothesis HSymbol : forall id, P (VSymbol id).
Hypothesis HFunction : forall fn, P (VFunction fn).
Hypothesis HArray : forall xs, Forall P xs -> P (VArray xs).
Hypothesis HObject : forall ps, Forall (fun p => P (snd p)) ps -> P (VObject ps).

Fixpoint value_ind (v : value) : P v :=
  match v with
  | VUndefined => HUndefined
  | VNull => HNull
  | VBool b => HBool b
  | VNumber x => HNumber x
  | VBigInt n => HBigInt n
  | VString s => HString s
  | VSymbol id => HSymbol id
  | VFunction fn => HFunction fn
  | VArray xs =>
      HArray xs
        ((fix elems (xs : list value) : Forall P xs :=
            match xs with
            | [] => @List.Forall_nil _ P
            | x :: xs' => @List.Forall_cons _ P x xs' (value_ind x) (elems xs')
            end) xs)
  | VObject ps =>
      HObject ps
        ((fix props (ps : list (string * value)) : Forall (fun p => P (snd p)) ps :=
            match ps with
            | [] => @List.Forall_nil _ _
            | p :: ps' => @List.Forall_cons _ _ p ps' (value_ind (snd p)) (props ps')
            end) ps)
  end.

End ValueInd.

(** ** Reading the trace *)

Definition assignments (es : list event) : list (string * value) :=
  flat_map (fun e => match e with Assigned P v => [(P, v)] | Invoked _ _ => [] end) es.

Definition invocations (es : list event) : list (fn_ref * list value) :=
  flat_map (fun e => match e with Invoked fn args => [(fn, args)] | Assigned _ _ => [] end) es.

(** [retained t w]: some property of the global object still holds [t],
    directly or inside a container. *)
Definition retained (t : value) (w : window) : Prop :=
  exists P, occurs t (Get w P) = true.

(** A host whose functions return [undefined] and touch nothing. *)
Definition inert_host (fn : fn_ref) (args : list value) (w : window) : host_result :=
  HostResult (Returns VUndefined) w.

(** A host whose functions raise an exception and touch nothing. *)
Definition raising_host (fn : fn_ref) (args : list value) (w : window) : host_result :=
  HostResult (Raises (VString "boom")) w.

(** ** Concrete states *)

(** No callback installed: the global object has no property at all. *)
Definition w_empty : window := ∅.

(** The callback is installed as function number 1. *)
Definition w_callback : window := {[ "register_implementors" := VFunction 1%positive ]}.

(** The property holds [true], which is truthy and cannot be called. *)
Definition w_not_callable : window := {[ "register_implementors" := VBool true ]}.

(** ** Several files in a row: the trace *)

Section Sequence.

Variable host : fn_ref -> list value -> window -> host_result.

(** What the files of [fs] do one after the other, in order; the global
    object is passed on as in [load_all]. *)
Fixpoint load_effects (fs : list source_file) (w : window) : list event :=
  match fs with
  | [] => []
  | f :: fs' =>
      effects (evaluate host f w) ++ load_effects fs' (final (evaluate host f w))
  end.

End Sequence.

(** ** Reading descriptors out of a table *)

(** [lists v lib s]: the table [v] has an entry whose descriptor is [s] in
    the array of library [lib]. *)
Definition lists (v : value) (lib s : string) : Prop :=
  exists ps es,
    v = VObject ps /\ In (lib, VArray es) ps /\ In (VArray [VString s]) es.

(** The descriptors of a table, each with the library it is listed under,
    in source order. *)
Definition descriptors (v : value) : list (string * string) :=
  match v with
  | VObject ps =>
      flat_map (fun p =>
        match snd p with
        | VArray es =>
            flat_map (fun e =>
              match e with
              | VArray [VString s] => [(fst p, s)]
              | _ => []
              end) es
        | _ => []
        end) ps
  | _ => []
  end.

(** The first descriptor of a table (the empty string when it has none). *)
Definition first_descriptor (v : value) : string :=
  match descriptors v with
  | (_, s) :: _ => s
  | [] => EmptyString
  end.

(** [each_starts c allowed s]: wherever the character [c] occurs in [s], one
    of the [allowed] strings starts there. *)
Fixpoint each_starts (c : ascii) (allowed : list string) (s : string) : bool :=
  match s with
  | EmptyString => true
  | String a s' =>
      (if Ascii.eqb a c then existsb (fun p => String.prefix p s) allowed else true)
      && each_starts c allowed s'
  end.

(** Number of places of [hay] at which [needle] starts. *)
Fixpoint count_sub (needle hay : string) : nat :=
  (if String.prefix needle hay then 1 else 0) +
  match hay with
  | EmptyString => 0
  | String _ hay' => count_sub needle hay'
  end.

(** The only markup a descriptor may open or close, and the only character
    references it may use. *)
Definition allowed_tags : list string :=
  ["<a class=" +:+ dquote; "</a>"; "<span class=" +:+ dquote; "</span>"].

Definition allowed_entities : list string := ["&lt;"; "&gt;"; "&amp;"].

(** The tags of a descriptor, in the order in which they occur. *)
Inductive element : Type :=
| A_element
| Span_element.

Inductive tag : Type :=
| Open (e : element)
| Close (e : element).

Definition element_eqb (e e' : element) : bool :=
  match e, e' with
  | A_element, A_element | Span_element, Span_element => true
  | _, _ => false
  end.

Definition tag_at (s : string) : list tag :=
  if String.prefix ("<a class=" +:+ dquote) s then [Open A_element]
  else if String.prefix "</a>" s then [Close A_element]
  else if String.prefix ("<span class=" +:+ dquote) s then [Open Span_element]
  else if String.prefix "</span>" s then [Close Span_element]
  else [].

Fixpoint tags_of (s : string) : list tag :=
  tag_at s ++
  match s with
  | EmptyString => []
  | String _ s' => tags_of s'
  end.

(** [nested open ts]: reading [ts] with the elements of [open] still to be
    closed (innermost first), every closing tag closes the innermost open
    element and nothing is left open at the end. *)
Fixpoint nested (open : list element) (ts : list tag) : bool :=
  match ts with
  | [] => match open with [] => true | _ :: _ => false end
  | Open e :: ts' => nested (e :: open) ts'
  | Close e :: ts' =>
      match open with
      | e' :: open' => element_eqb e e' && nested open' ts'
      | [] => false
      end
  end.

(** Properly nested sequences of tags: nothing, or an element that is
    opened, has properly nested content, is closed, and is followed by a
    properly nested sequence. *)
Inductive balanced : list tag -> Prop :=
| balanced_nil : balanced []
| balanced_element (e : element) (inside after : list tag) :
    balanced inside -> balanced after ->
    balanced (Open e :: inside ++ Close e :: after).

(** [closes open ts]: [ts] is properly nested content followed, for each
    element of [open] in turn, by its closing tag and more properly nested
    content. *)
Inductive closes : list element -> list tag -> Prop :=
| closes_nil (ts : list tag) : balanced ts -> closes [] ts
| closes_cons (e : element) (open : list element) (inside rest : list tag) :
    balanced inside -> closes open rest ->
    closes (e :: open) (inside ++ Close e :: rest).

Definition fragment_ok (s : string) : bool :=
  each_starts "<" allowed_tags s
  && each_starts "&" allowed_entities s
  && Nat.eqb (count_sub "<a " s) (count_sub "</a>" s)
  && Nat.eqb (count_sub "<span " s) (count_sub "</span>" s)
  && nested [] (tags_of s).

(** The links a descriptor listed under [lib] makes into that library: the
    page of the implementing type and its path in the tooltip. *)
Definition links_into (lib s : string) : bool :=
  contains ("href=" +:+ dquote +:+ lib +:+ "/") s
  && (contains ("title=" +:+ dquote +:+ "struct " +:+ lib +:+ "::") s
      || contains ("title=" +:+ dquote +:+ "enum " +:+ lib +:+ "::") s).

(** The trait a file is the implementors table of, as its descriptors
    spell it. *)
Definition names_trait (f : source_file) (s : string) : bool :=
  match f with
  | Trait_Lower_js => String.prefix ("impl Lower for <a class=" +:+ dquote) s
  | Part_000 =>
      contains ("title=" +:+ dquote +:+ "trait core::iter::traits::collect::IntoIterator"
                +:+ dquote +:+ ">IntoIterator</a> for ") s
  end.

(** Membership and absence of repetitions, by [value_eqb]. *)
Fixpoint memb (x : value) (l : list value) : bool :=
  match l with
  | [] => false
  | y :: l' => value_eqb x y || memb x l'
  end.

Fixpoint nodupb (l : list value) : bool :=
  match l with
  | [] => true
  | x :: l' => negb (memb x l') && nodupb l'
  end.

Definition arrays_nodup (v : value) : bool :=
  match v with
  | VObject ps =>
      forallb (fun p => match snd p with VArray es => nodupb es | _ => true end) ps
  | _ => true
  end.

(** * Basic facts *)

(** ** Boolean equality decides equality *)

Lemma spec_float_eqb_eq (x y : spec_float) : spec_float_eqb x y = true <-> x = y.
Proof.
  destruct x, y; simpl; split; intros H; try discriminate; try reflexivity.
  - apply Bool.eqb_prop in H. congruence.
  - injection H as ->. apply Bool.eqb_reflx.
  - apply Bool.eqb_prop in H. congruence.
  - injection H as ->. apply Bool.eqb_reflx.
  - apply andb_prop in H as [H He]. apply andb_prop in H as [Hs Hm].
    apply Bool.eqb_prop in Hs. apply Pos.eqb_eq in Hm. apply Z.eqb_eq in He.
    congruence.
  - injection H as -> -> ->.
    rewrite Bool.eqb_reflx, Pos.eqb_refl, Z.eqb_refl. reflexivity.
Qed.

Lemma value_eqb_refl (v : value) : value_eqb v v = true.
Proof.
  induction v as [ | | b | x | n | s | id | fn | xs IH | ps IH ] using value_ind;
    simpl; try reflexivity.
  - apply Bool.eqb_reflx.
  - apply spec_float_eqb_eq. reflexivity.
  - apply Z.eqb_refl.
  - apply String.eqb_refl.
  - apply Pos.eqb_refl.
  - apply Pos.eqb_refl.
  - induction IH as [ | x xs Hx _ IHxs ]; [ reflexivity | ].
    rewrite Hx, IHxs. reflexivity.
  - induction IH as [ | [k x] ps Hx _ IHps ]; [ reflexivity | ].
    simpl in Hx. rewrite String.eqb_refl, Hx, IHps. reflexivity.
Qed.

Lemma value_eqb_eq (a b : value) : value_eqb a b = true <-> a = b.
Proof.
  split; [ | intros ->; apply value_eqb_refl ].
  revert b.
  induction a as [ | | x | x | x | x | x | x | xs IH | ps IH ] using value_ind;
    intros [ | | y | y | y | y | y | y | ys | qs ]; simpl; intros H;
    try discriminate; try reflexivity.
  - apply Bool.eqb_prop in H. congruence.
  - apply spec_float_eqb_eq in H. congruence.
  - apply Z.eqb_eq in H. congruence.
  - apply String.eqb_eq in H. congruence.
  - apply Pos.eqb_eq in H. congruence.
  - apply Pos.eqb_eq in H. congruence.
  - f_equal. revert ys H.
    induction IH as [ | x xs Hx _ IHxs ]; intros [ | y ys ] H;
      try discriminate; [ reflexivity | ].
    apply andb_prop in H as [H1 H2].
    f_equal; [ apply Hx, H1 | apply IHxs, H2 ].
  - f_equal. revert qs H.
    induction IH as [ | [k x] ps Hx _ IHps ]; intros [ | [l y] qs ] H;
      try discriminate; [ reflexivity | ].
    apply andb_prop in H as [H H3]. apply andb_prop in H as [H1 H2].
    apply String.eqb_eq in H1. simpl in Hx.
    f_equal; [ f_equal; [ exact H1 | apply Hx, H2 ] | apply IHps, H3 ].
Qed.

Lemma value_eqb_neq (a b : value) : value_eqb a b = false -> a <> b.
Proof.
  intros H E. apply value_eqb_eq in E. congruence.
Qed.

(** ** Reading the global object *)

Lemma Get_insert_eq (w : window) (P : string) (v : value) : Get (<[P:=v]> w) P = v.
Proof. unfold Get. rewrite lookup_insert_eq. reflexivity. Qed.

Lemma Get_insert_ne (w : window) (P Q : string) (v : value) :
  P <> Q -> Get (<[P:=v]> w) Q = Get w Q.
Proof. intros H. unfold Get. rewrite lookup_insert_ne by exact H. reflexivity. Qed.

Lemma Get_empty (P : string) : Get ∅ P = VUndefined.
Proof. unfold Get. rewrite lookup_empty. reflexivity. Qed.

(** ** Evaluation, case by case *)

Section Equations.

Variable host : fn_ref -> list value -> window -> host_result.

(** The else branch. *)
Lemma evaluate_falsy (f : source_file) (w : window) :
  ToBoolean (Get w "register_implementors") = false ->
  evaluate host f w =
    Run [Assigned "pending_implementors" (implementors_of f)] (Normal tt)
        (<["pending_implementors" := implementors_of f]> w).
Proof.
  intros H. unfold evaluate, iife, bind, get_global.
  cbn [outcome final effects]. rewrite H. reflexivity.
Qed.

(** The then branch, callee a function. *)
Lemma evaluate_function (f : source_file) (w : window) (fn : fn_ref) :
  Get w "register_implementors" = VFunction fn ->
  evaluate host f w =
    Run [Invoked fn [implementors_of f]]
        match host_outcome_of (host fn [implementors_of f] w) with
        | Returns _ => Normal tt
        | Raises e => Throw (Raised e)
        end
        (host_after (host fn [implementors_of f] w)).
Proof.
  intros H. unfold evaluate, iife, bind, get_global, call_global.
  cbn [outcome final effects]. rewrite H.
  cbn [ToBoolean outcome final effects]. rewrite H.
  destruct (host_outcome_of (host fn [implementors_of f] w)); reflexivity.
Qed.

(** The then branch, callee not callable. *)
Lemma evaluate_not_callable (f : source_file) (w : window) :
  ToBoolean (Get w "register_implementors") = true ->
  IsCallable (Get w "register_implementors") = false ->
  evaluate host f w =
    Run [] (Throw (TypeError_not_a_function (Get w "register_implementors"))) w.
Proof.
  intros Ht Hc. unfold evaluate, iife, bind, get_global, call_global.
  cbn [outcome final effects]. rewrite Ht. cbn [outcome final effects].
  destruct (Get w "register_implementors"); try discriminate Hc; reflexivity.
Qed.

(** All three cases at once. *)
Lemma evaluate_eq (f : source_file) (w : window) :
  evaluate host f w =
    match Get w "register_implementors" with
    | VFunction fn =>
        Run [Invoked fn [implementors_of f]]
            match host_outcome_of (host fn [implementors_of f] w) with
            | Returns _ => Normal tt
            | Raises e => Throw (Raised e)
            end
            (host_after (host fn [implementors_of f] w))
    | v =>
        if ToBoolean v
        then Run [] (Throw (TypeError_not_a_function v)) w
        else Run [Assigned "pending_implementors" (implementors_of f)] (Normal tt)
                 (<["pending_implementors" := implementors_of f]> w)
    end.
Proof.
  destruct (IsCallable (Get w "register_implementors")) eqn:C.
  - destruct (Get w "register_implementors") eqn:E; try discriminate C.
    apply evaluate_function, E.
  - destruct (ToBoolean (Get w "register_implementors")) eqn:T.
    + rewrite evaluate_not_callable by assumption.
      revert C T. destruct (Get w "register_implementors"); intros C T;
        try discriminate C; try solve [ simpl in T; discriminate T ];
        cbv zeta; rewrite ?T; reflexivity.
    + rewrite evaluate_falsy by assumption.
      revert C T. destruct (Get w "register_implementors"); intros C T;
        try discriminate C; try solve [ simpl in T; discriminate T ];
        cbv zeta; rewrite ?T; reflexivity.
Qed.

Ltac case_callback :=
  match goal with
  | |- context [match ?v with VFunction _ => _ | _ => _ end] =>
      destruct v; cbv zeta; repeat match goal with
                         | |- context [if ?b then _ else _] => destruct b
                         end
  end.

(** The trace, the completion and the global object a file leaves. *)
Lemma effects_evaluate (f : source_file) (w : window) :
  effects (evaluate host f w) =
    match Get w "register_implementors" with
    | VFunction fn => [Invoked fn [implementors_of f]]
    | v => if ToBoolean v then []
           else [Assigned "pending_implementors" (implementors_of f)]
    end.
Proof. rewrite evaluate_eq. case_callback; reflexivity. Qed.

Lemma final_evaluate (f : source_file) (w : window) :
  final (evaluate host f w) =
    match Get w "register_implementors" with
    | VFunction fn => host_after (host fn [implementors_of f] w)
    | v => if ToBoolean v then w
           else <["pending_implementors" := implementors_of f]> w
    end.
Proof. rewrite evaluate_eq. case_callback; reflexivity. Qed.

(** Two files in a row with no callback: the second assignment replaces
    the first. *)
Lemma load_two_falsy (f1 f2 : source_file) (w : window) :
  ToBoolean (Get w "register_implementors") = false ->
  load_all host [f1; f2] w = <["pending_implementors" := implementors_of f2]> w.
Proof.
  intros H. cbn [load_all].
  rewrite (evaluate_falsy f1 w H). cbn [final].
  rewrite evaluate_falsy by (rewrite Get_insert_ne by discriminate; exact H).
  cbn [final]. apply insert_insert_eq.
Qed.

(** Two files in a row when nothing can be called: both raise and the
    global object stays as it was. *)
Lemma load_two_not_callable (f1 f2 : source_file) (w : window) :
  ToBoolean (Get w "register_implementors") = true ->
  IsCallable (Get w "register_implementors") = false ->
  load_all host [f1; f2] w = w.
Proof.
  intros T C. cbn [load_all].
  rewrite (evaluate_not_callable f1 w T C). cbn [final].
  rewrite (evaluate_not_callable f2 w T C). reflexivity.
Qed.

Lemma load_one_falsy (f : source_file) (w : window) :
  ToBoolean (Get w "register_implementors") = false ->
  load_all host [f] w = <["pending_implementors" := implementors_of f]> w.
Proof. intros H. cbn [load_all]. rewrite (evaluate_falsy f w H). reflexivity. Qed.

End Equations.

(** ** The boolean shape checks are sound *)

Lemma is_entry_sound (e : value) :
  is_entry e = true -> exists s, e = VArray [VString s] /\ is_descriptor s = true.
Proof.
  destruct e as [ | | | | | | | | xs | ]; try discriminate.
  destruct xs as [ | x xs ]; [ discriminate | ].
  destruct x; try discriminate.
  destruct xs; [ | discriminate ].
  simpl. intros H. eexists. split; [ reflexivity | exact H ].
Qed.

Lemma is_table_sound (v : value) : is_table v = true -> table_shape v.
Proof.
  destruct v as [ | | | | | | | | | ps ]; try discriminate.
  unfold is_table. intros H. apply andb_prop in H as [Hn Hf].
  exists ps. split; [ reflexivity | ]. split.
  - apply bool_decide_eq_true in Hn. exact Hn.
  - intros lib x Hin.
    rewrite forallb_forall in Hf. specialize (Hf _ Hin). simpl in Hf.
    destruct x as [ | | | | | | | | es | ]; try discriminate.
    exists es. split; [ reflexivity | ].
    intros e He. simpl in Hf. rewrite forallb_forall in Hf.
    apply is_entry_sound, Hf, He.
Qed.

Lemma implementors_shape (f : source_file) : table_shape (implementors_of f).
Proof. destruct f; apply is_table_sound; vm_compute; reflexivity. Qed.

Lemma implementors_differ :
  implementors_of Trait_Lower_js <> implementors_of Part_000.
Proof. apply value_eqb_neq. vm_compute. reflexivity. Qed.

(** * Properties of the two files *)

Section Claims.

Variable host : fn_ref -> list value -> window -> host_result.

(** C1, as the code has it.  For every state of the global object,
    evaluating a file builds its literal table and then dispatches on
    [window.register_implementors] in one of three ways.  When the property
    is a function, that function is invoked exactly once with the table as
    its only argument, nothing is assigned, and the file completes as the
    call does, on the global object the call leaves.  When the property is
    truthy but not callable, a TypeError is raised and nothing is invoked
    or assigned.  Otherwise (the property is falsy) the only thing the file
    does is assign the table to [window.pending_implementors]. *)
Theorem C1_dispatch_by_cases (f : source_file) (w : window) :
  (forall fn, Get w "register_implementors" = VFunction fn ->
     evaluate host f w =
       Run [Invoked fn [implementors_of f]]
           match host_outcome_of (host fn [implementors_of f] w) with
           | Returns _ => Normal tt
           | Raises e => Throw (Raised e)
           end
           (host_after (host fn [implementors_of f] w)))
  /\ (ToBoolean (Get w "register_implementors") = true ->
      IsCallable (Get w "register_implementors") = false ->
      evaluate host f w =
        Run [] (Throw (TypeError_not_a_function (Get w "register_implementors"))) w)
  /\ (ToBoolean (Get w "register_implementors") = false ->
      evaluate host f w =
        Run [Assigned "pending_implementors" (implementors_of f)] (Normal tt)
            (<["pending_implementors" := implementors_of f]> w)).
Proof.
  split; [ | split ].
  - intros fn E. apply evaluate_function, E.
  - intros T C. apply evaluate_not_callable; assumption.
  - intros T. apply evaluate_falsy, T.
Qed.

(** C2, as the code has it.  With no callback installed (the property is
    falsy) a file stores its table in the one variable
    [window.pending_implementors], replacing what was there: after two
    files in a row the variable holds exactly the table of the file
    evaluated last and every other property is as before. *)
Theorem C2_pending_holds_last_table (f1 f2 : source_file) (w : window) :
  ToBoolean (Get w "register_implementors") = false ->
  Get (load_all host [f1; f2] w) "pending_implementors" = implementors_of f2
  /\ forall P, P <> "pending_implementors" ->
       load_all host [f1; f2] w !! P = w !! P.
Proof.
  intros H. rewrite (load_two_falsy host f1 f2 w H). split.
  - apply Get_insert_eq.
  - intros P HP. apply lookup_insert_ne. congruence.
Qed.

(** C3, as the code has it.  Whenever [window.register_implementors] is
    not a callable function, the two orders of evaluating two files agree
    on every property of the global object other than
    [pending_implementors]; with no callback installed (the property is
    falsy) that property holds the table of the file evaluated last, so
    the two orders differ there as soon as the tables do. *)
Theorem C3_orders_agree_off_pending (f1 f2 : source_file) (w : window) :
  IsCallable (Get w "register_implementors") = false ->
  (forall P, P <> "pending_implementors" ->
     load_all host [f1; f2] w !! P = load_all host [f2; f1] w !! P)
  /\ (ToBoolean (Get w "register_implementors") = false ->
      load_all host [f1; f2] w !! "pending_implementors" = Some (implementors_of f2)
      /\ load_all host [f2; f1] w !! "pending_implementors" = Some (implementors_of f1)).
Proof.
  intros C. split.
  - intros P HP.
    destruct (ToBoolean (Get w "register_implementors")) eqn:T.
    + rewrite !load_two_not_callable by assumption. reflexivity.
    + rewrite (load_two_falsy host f1 f2 w T), (load_two_falsy host f2 f1 w T).
      rewrite !lookup_insert_ne by congruence. reflexivity.
  - intros T.
    rewrite (load_two_falsy host f1 f2 w T), (load_two_falsy host f2 f1 w T).
    split; apply lookup_insert_eq.
Qed.

(** C4, as the code has it.  The one branch of a file is on
    [window.register_implementors]: two initial states in which that
    property has the same value, or is falsy in both, give the same
    writes and the same calls with the same values. *)
Theorem C4_effects_depend_on_callback (f : source_file) (w1 w2 : window) :
  Get w1 "register_implementors" = Get w2 "register_implementors"
  \/ (ToBoolean (Get w1 "register_implementors") = false
      /\ ToBoolean (Get w2 "register_implementors") = false) ->
  effects (evaluate host f w1) = effects (evaluate host f w2).
Proof.
  intros [E | [H1 H2]].
  - rewrite !effects_evaluate, E. reflexivity.
  - rewrite (evaluate_falsy host f w1 H1), (evaluate_falsy host f w2 H2).
    reflexivity.
Qed.

(** C5, as the code has it.  Evaluating a file leaves every property of the
    global object unchanged, with two exceptions: with no callback
    installed (the property [register_implementors] is falsy)
    [pending_implementors] is overwritten with the table, and with a
    function installed the global object is the one that the single call
    made by the file leaves, so that a property is unchanged whenever that
    call leaves it unchanged. *)
Theorem C5_frame_pointwise (f : source_file) (w : window) (P : string) :
  (ToBoolean (Get w "register_implementors") = true \/ P <> "pending_implementors" ->
   (forall fn, Get w "register_implementors" = VFunction fn ->
      host_after (host fn [implementors_of f] w) !! P = w !! P) ->
   final (evaluate host f w) !! P = w !! P)
  /\ (forall fn, Get w "register_implementors" = VFunction fn ->
      final (evaluate host f w) = host_after (host fn [implementors_of f] w))
  /\ (ToBoolean (Get w "register_implementors") = false ->
      final (evaluate host f w) !! "pending_implementors" = Some (implementors_of f)).
Proof.
  split; [ | split ].
  - intros HT Hcall.
    destruct (IsCallable (Get w "register_implementors")) eqn:C.
    + destruct (Get w "register_implementors") eqn:E; try discriminate C.
      rewrite (evaluate_function host f w _ E). cbn [final].
      apply (Hcall _ eq_refl).
    + destruct (ToBoolean (Get w "register_implementors")) eqn:T.
      * rewrite evaluate_not_callable by assumption. reflexivity.
      * rewrite evaluate_falsy by assumption. cbn [final].
        destruct HT as [HT | HP]; [ discriminate HT | ].
        apply lookup_insert_ne. congruence.
  - intros fn E. rewrite (evaluate_function host f w _ E). reflexivity.
  - intros H. rewrite (evaluate_falsy host f w H). apply lookup_insert_eq.
Qed.

(** C6, as the code has it.  Evaluating a file completes normally exactly
    when [window.register_implementors] is falsy, or is a function whose
    call returns; a truthy value that is not callable raises a TypeError,
    and an exception raised by the function that is called is passed
    on. *)
Theorem C6_completion_by_cases (f : source_file) (w : window) :
  (outcome (evaluate host f w) = Normal tt <->
     ToBoolean (Get w "register_implementors") = false
     \/ exists fn v,
          Get w "register_implementors" = VFunction fn
          /\ host_outcome_of (host fn [implementors_of f] w) = Returns v)
  /\ (ToBoolean (Get w "register_implementors") = true ->
      IsCallable (Get w "register_implementors") = false ->
      outcome (evaluate host f w) =
        Throw (TypeError_not_a_function (Get w "register_implementors")))
  /\ (forall fn e,
        Get w "register_implementors" = VFunction fn ->
        host_outcome_of (host fn [implementors_of f] w) = Raises e ->
        outcome (evaluate host f w) = Throw (Raised e)).
Proof.
  split; [ split | split ].
  - destruct (ToBoolean (Get w "register_implementors")) eqn:T; [ | left; reflexivity ].
    intros H. right.
    destruct (IsCallable (Get w "register_implementors")) eqn:C.
    + destruct (Get w "register_implementors") eqn:E; try discriminate C.
      rewrite (evaluate_function host f w _ E) in H. cbn [outcome] in H.
      destruct (host_outcome_of (host fn [implementors_of f] w)) eqn:R;
        [ eauto | discriminate H ].
    + rewrite evaluate_not_callable in H by assumption. discriminate H.
  - intros [H | (fn & v & E & R)].
    + rewrite (evaluate_falsy host f w H). reflexivity.
    + rewrite (evaluate_function host f w _ E). cbn [outcome]. rewrite R. reflexivity.
  - intros T C. rewrite (evaluate_not_callable host f w T C). reflexivity.
  - intros fn e E R. rewrite (evaluate_function host f w _ E).
    cbn [outcome]. rewrite R. reflexivity.
Qed.

(** C7. Evaluating one file writes at most one global: every write of the
    file is to [window.pending_implementors] and happens only when
    [window.register_implementors] is not set; in that case every other
    property keeps its value, and when the property is set the file writes
    nothing, so that the global object is the one the callee leaves (or the
    initial one when nothing could be called). *)
Theorem C7_single_assignment (f : source_file) (w : window) :
  length (assignments (effects (evaluate host f w))) <= 1
  /\ (forall P v, In (P, v) (assignments (effects (evaluate host f w))) ->
        P = "pending_implementors"
        /\ ToBoolean (Get w "register_implementors") = false)
  /\ (ToBoolean (Get w "register_implementors") = false ->
        forall P, P <> "pending_implementors" ->
          final (evaluate host f w) !! P = w !! P)
  /\ (ToBoolean (Get w "register_implementors") = true ->
        final (evaluate host f w) =
          match Get w "register_implementors" with
          | VFunction fn => host_after (host fn [implementors_of f] w)
          | _ => w
          end).
Proof.
  split; [ | split; [ | split ] ].
  - rewrite effects_evaluate.
    destruct (Get w "register_implementors"); cbv zeta;
      repeat match goal with
             | |- context [if ?b then _ else _] => destruct b
             end; simpl; lia.
  - intros P v. rewrite effects_evaluate.
    destruct (Get w "register_implementors") eqn:E; cbv zeta;
      repeat match goal with
             | |- context [if ?b then _ else _] => destruct b eqn:?
             end; simpl; intros H;
      try contradiction; destruct H as [H | []]; injection H as <- _;
      split; first [ reflexivity | assumption ].
  - intros H P HP. rewrite (evaluate_falsy host f w H).
    apply lookup_insert_ne. congruence.
  - intros T. rewrite final_evaluate. revert T.
    destruct (Get w "register_implementors"); intros T; cbv zeta;
      rewrite ?T; try reflexivity; discriminate T.
Qed.

(** C8, as the code has it.  What a file registers is exactly its literal
    table: the sole argument of the call when the property is a function,
    the value of [window.pending_implementors] when the property is falsy.
    The table maps pairwise distinct library names to arrays, and each
    entry of such an array is a one-element array whose element is the
    descriptor string (an HTML fragment naming the trait and the type). *)
Theorem C8_registered_value_and_shape (f : source_file) (w : window) :
  (forall fn, Get w "register_implementors" = VFunction fn ->
     invocations (effects (evaluate host f w)) = [(fn, [implementors_of f])])
  /\ (ToBoolean (Get w "register_implementors") = false ->
     final (evaluate host f w) !! "pending_implementors" = Some (implementors_of f))
  /\ table_shape (implementors_of f).
Proof.
  split; [ | split ].
  - intros fn E. rewrite (evaluate_function host f w _ E). reflexivity.
  - intros H. rewrite (evaluate_falsy host f w H). apply lookup_insert_eq.
  - apply implementors_shape.
Qed.

(** C9. The two branches exclude each other.  When
    [window.register_implementors] is truthy the file assigns nothing: the
    global object is handed to the callee as it was and comes back as the
    callee leaves it (or stays as it was when nothing could be called), so
    [pending_implementors] keeps its value whenever the host's functions
    leave it alone.  When the property is falsy nothing is invoked. *)
Theorem C9_branches_exclusive (f : source_file) (w : window) :
  (ToBoolean (Get w "register_implementors") = true ->
     assignments (effects (evaluate host f w)) = []
     /\ final (evaluate host f w) =
          match Get w "register_implementors" with
          | VFunction fn => host_after (host fn [implementors_of f] w)
          | _ => w
          end
     /\ ((forall fn args w0,
            host_after (host fn args w0) !! "pending_implementors" =
            w0 !! "pending_implementors") ->
         final (evaluate host f w) !! "pending_implementors" =
         w !! "pending_implementors"))
  /\ (ToBoolean (Get w "register_implementors") = false ->
     invocations (effects (evaluate host f w)) = []).
Proof.
  split.
  - intros T. rewrite effects_evaluate, final_evaluate. revert T.
    destruct (Get w "register_implementors"); intros T; cbv zeta;
      rewrite ?T; try discriminate T;
      (split; [ reflexivity | split; [ reflexivity | ] ]);
      intros Hhost; first [ apply Hhost | reflexivity ].
  - intros H. rewrite (evaluate_falsy host f w H). reflexivity.
Qed.

(** C10. With no callback installed, evaluating a file a second time leaves
    [window.pending_implementors] holding a table equal to the one the
    first evaluation left; the whole global object is the same. *)
Theorem C10_reevaluation_idempotent (f : source_file) (w : window) :
  ToBoolean (Get w "register_implementors") = false ->
  Get (load_all host [f; f] w) "pending_implementors" =
  Get (load_all host [f] w) "pending_implementors"
  /\ load_all host [f; f] w = load_all host [f] w.
Proof.
  intros H.
  rewrite (load_two_falsy host f f w H), (load_one_falsy host f w H).
  split; reflexivity.
Qed.

End Claims.

(** ** Where the code departs from the specification *)

(** Against C1: with [window.register_implementors = true] the property is
    set, yet evaluating a file invokes no function and assigns nothing. *)
Lemma C1_set_but_nothing_invoked :
  ToBoolean (Get w_not_callable "register_implementors") = true
  /\ invocations (effects (evaluate inert_host Trait_Lower_js w_not_callable)) = []
  /\ assignments (effects (evaluate inert_host Trait_Lower_js w_not_callable)) = []
  /\ final (evaluate inert_host Trait_Lower_js w_not_callable) !! "pending_implementors"
       = None.
Proof.
  split; [ reflexivity | ].
  rewrite evaluate_not_callable by reflexivity.
  split; [ reflexivity | split; reflexivity ].
Qed.

(** Against C2: starting with no callback, after [trait.Lower.js] and then
    [part_000] no property of the global object holds the table of
    [trait.Lower.js] any more, so the two tables are not both retained. *)
Lemma C2_first_table_discarded :
  ToBoolean (Get w_empty "register_implementors") = false
  /\ ~ (retained (implementors_of Trait_Lower_js)
          (load_all inert_host [Trait_Lower_js; Part_000] w_empty)
        /\ retained (implementors_of Part_000)
          (load_all inert_host [Trait_Lower_js; Part_000] w_empty)).
Proof.
  split; [ reflexivity | ].
  intros [[P HP] _].
  rewrite load_two_falsy in HP by reflexivity.
  destruct (decide ("pending_implementors" = P)) as [ <- | HN ].
  - rewrite Get_insert_eq in HP. vm_compute in HP. discriminate HP.
  - rewrite Get_insert_ne in HP by exact HN.
    unfold w_empty in HP. rewrite Get_empty in HP.
    vm_compute in HP. discriminate HP.
Qed.

(** Against C3: starting from the empty global object the two orders leave
    different global objects. *)
Lemma C3_orders_differ :
  load_all inert_host [Trait_Lower_js; Part_000] w_empty <>
  load_all inert_host [Part_000; Trait_Lower_js] w_empty.
Proof.
  rewrite !load_two_falsy by reflexivity. intros H.
  apply (f_equal (fun w : window => Get w "pending_implementors")) in H.
  rewrite !Get_insert_eq in H.
  apply implementors_differ. symmetry. exact H.
Qed.

(** Against C4: from the empty global object a file writes a global, from
    one with the callback installed it calls a function instead. *)
Lemma C4_effects_differ :
  effects (evaluate inert_host Trait_Lower_js w_empty) <>
  effects (evaluate inert_host Trait_Lower_js w_callback).
Proof.
  rewrite (evaluate_falsy inert_host Trait_Lower_js w_empty) by reflexivity.
  rewrite (evaluate_function inert_host Trait_Lower_js w_callback 1%positive)
    by reflexivity.
  cbn [effects]. discriminate.
Qed.

(** Against C5: from the empty global object a file creates the property
    [pending_implementors]. *)
Lemma C5_pending_is_written :
  final (evaluate inert_host Trait_Lower_js w_empty) !! "pending_implementors" <>
  w_empty !! "pending_implementors".
Proof.
  rewrite (evaluate_falsy inert_host Trait_Lower_js w_empty) by reflexivity.
  cbn [final]. rewrite lookup_insert_eq. unfold w_empty. rewrite lookup_empty.
  discriminate.
Qed.

(** Against C6: with [window.register_implementors = true] the call raises
    a TypeError. *)
Lemma C6_not_callable_raises :
  ToBoolean (Get w_not_callable "register_implementors") = true
  /\ IsCallable (Get w_not_callable "register_implementors") = false
  /\ outcome (evaluate inert_host Trait_Lower_js w_not_callable) =
       Throw (TypeError_not_a_function (VBool true))
  /\ outcome (evaluate inert_host Part_000 w_not_callable) =
       Throw (TypeError_not_a_function (VBool true)).
Proof.
  split; [ reflexivity | ]. split; [ reflexivity | ].
  split; rewrite evaluate_not_callable by reflexivity; reflexivity.
Qed.

(** Against C8: the first entry of the array of [component_test_util] in
    [trait.Lower.js] is an array, not a string. *)
Lemma C8_entries_are_arrays :
  ~ entries_are_strings (implementors_of Trait_Lower_js).
Proof.
  intros H.
  assert (E : exists s es,
             property_of (implementors_of Trait_Lower_js) "component_test_util" =
             Some (VArray (VArray [VString s] :: es))).
  { vm_compute. eexists. eexists. reflexivity. }
  destruct E as (s & es & E).
  destruct (H _ _ (VArray [VString s]) E) as [t Ht].
  - left. reflexivity.
  - discriminate Ht.
Qed.

(** ** The theorems at concrete states *)

Lemma C1_dispatch_by_cases_witness :
  (Get w_callback "register_implementors" = VFunction 1%positive
   /\ evaluate inert_host Trait_Lower_js w_callback =
        Run [Invoked 1%positive [implementors_of Trait_Lower_js]] (Normal tt) w_callback)
  /\ (ToBoolean (Get w_not_callable "register_implementors") = true
      /\ IsCallable (Get w_not_callable "register_implementors") = false
      /\ evaluate inert_host Trait_Lower_js w_not_callable =
           Run [] (Throw (TypeError_not_a_function (VBool true))) w_not_callable)
  /\ (ToBoolean (Get w_empty "register_implementors") = false
      /\ evaluate inert_host Part_000 w_empty =
           Run [Assigned "pending_implementors" (implementors_of Part_000)] (Normal tt)
               (<["pending_implementors" := implementors_of Part_000]> w_empty)).
Proof.
  split; [ | split ].
  - split; [ reflexivity | ].
    apply (proj1 (C1_dispatch_by_cases inert_host Trait_Lower_js w_callback)
             1%positive).
    reflexivity.
  - split; [ reflexivity | ]. split; [ reflexivity | ].
    apply (proj1 (proj2 (C1_dispatch_by_cases inert_host Trait_Lower_js
                           w_not_callable))); reflexivity.
  - split; [ reflexivity | ].
    apply (proj2 (proj2 (C1_dispatch_by_cases inert_host Part_000 w_empty))).
    reflexivity.
Defined.

Lemma C2_pending_holds_last_table_witness :
  ToBoolean (Get w_empty "register_implementors") = false
  /\ Get (load_all inert_host [Trait_Lower_js; Part_000] w_empty) "pending_implementors" =
       implementors_of Part_000.
Proof.
  split; [ reflexivity | ].
  apply (C2_pending_holds_last_table inert_host Trait_Lower_js Part_000 w_empty).
  reflexivity.
Defined.

Lemma C3_orders_agree_off_pending_witness :
  IsCallable (Get w_empty "register_implementors") = false
  /\ ToBoolean (Get w_empty "register_implementors") = false
  /\ load_all inert_host [Trait_Lower_js; Part_000] w_empty !! "pending_implementors" =
       Some (implementors_of Part_000)
  /\ load_all inert_host [Part_000; Trait_Lower_js] w_empty !! "pending_implementors" =
       Some (implementors_of Trait_Lower_js).
Proof.
  split; [ reflexivity | ]. split; [ reflexivity | ].
  apply (C3_orders_agree_off_pending inert_host Trait_Lower_js Part_000 w_empty);
    reflexivity.
Defined.

Lemma C4_effects_depend_on_callback_witness :
  Get w_callback "register_implementors" =
    Get (<["pending_implementors" := VNull]> w_callback) "register_implementors"
  /\ effects (evaluate inert_host Part_000 w_callback) =
     effects (evaluate inert_host Part_000 (<["pending_implementors" := VNull]> w_callback)).
Proof.
  split; [ reflexivity | ].
  apply (C4_effects_depend_on_callback inert_host Part_000).
  left. reflexivity.
Defined.

Lemma C5_frame_pointwise_witness :
  (ToBoolean (Get w_callback "register_implementors") = true
   /\ final (evaluate inert_host Trait_Lower_js w_callback) !! "pending_implementors" =
      w_callback !! "pending_implementors")
  /\ ("register_implementors" <> "pending_implementors"
      /\ final (evaluate inert_host Trait_Lower_js w_empty) !! "register_implementors" =
         w_empty !! "register_implementors")
  /\ (ToBoolean (Get w_empty "register_implementors") = false
      /\ final (evaluate inert_host Trait_Lower_js w_empty) !! "pending_implementors" =
         Some (implementors_of Trait_Lower_js)).
Proof.
  split; [ | split ].
  - split; [ reflexivity | ].
    apply (proj1 (C5_frame_pointwise inert_host Trait_Lower_js w_callback
                    "pending_implementors")).
    + left. reflexivity.
    + intros fn E. reflexivity.
  - split; [ discriminate | ].
    apply (proj1 (C5_frame_pointwise inert_host Trait_Lower_js w_empty
                    "register_implementors")).
    + right. discriminate.
    + intros fn E. reflexivity.
  - split; [ reflexivity | ].
    apply (proj2 (proj2 (C5_frame_pointwise inert_host Trait_Lower_js w_empty
                           "register_implementors"))).
    reflexivity.
Defined.

Lemma C6_completion_by_cases_witness :
  (ToBoolean (Get w_empty "register_implementors") = false
   /\ outcome (evaluate inert_host Trait_Lower_js w_empty) = Normal tt)
  /\ (Get w_callback "register_implementors" = VFunction 1%positive
      /\ outcome (evaluate inert_host Part_000 w_callback) = Normal tt)
  /\ (ToBoolean (Get w_not_callable "register_implementors") = true
      /\ IsCallable (Get w_not_callable "register_implementors") = false
      /\ outcome (evaluate inert_host Part_000 w_not_callable) =
           Throw (TypeError_not_a_function (VBool true)))
  /\ (host_outcome_of (raising_host 1%positive [implementors_of Part_000] w_callback) =
        Raises (VString "boom")
      /\ outcome (evaluate raising_host Part_000 w_callback) =
           Throw (Raised (VString "boom"))).
Proof.
  split; [ | split; [ | split ] ].
  - split; [ reflexivity | ].
    apply (proj2 (proj1 (C6_completion_by_cases inert_host Trait_Lower_js w_empty))).
    left. reflexivity.
  - split; [ reflexivity | ].
    apply (proj2 (proj1 (C6_completion_by_cases inert_host Part_000 w_callback))).
    right. exists 1%positive, VUndefined. split; reflexivity.
  - split; [ reflexivity | ]. split; [ reflexivity | ].
    apply (proj1 (proj2 (C6_completion_by_cases inert_host Part_000 w_not_callable)));
      reflexivity.
  - split; [ reflexivity | ].
    apply (proj2 (proj2 (C6_completion_by_cases raising_host Part_000 w_callback))
             1%positive (VString "boom")); reflexivity.
Defined.

Lemma C7_single_assignment_witness :
  (ToBoolean (Get w_empty "register_implementors") = false
   /\ final (evaluate inert_host Trait_Lower_js w_empty) !! "register_implementors" =
      w_empty !! "register_implementors")
  /\ (ToBoolean (Get w_callback "register_implementors") = true
      /\ final (evaluate inert_host Trait_Lower_js w_callback) = w_callback)
  /\ length (assignments (effects (evaluate inert_host Trait_Lower_js w_empty))) <= 1.
Proof.
  split; [ | split ].
  - split; [ reflexivity | ].
    apply (proj1 (proj2 (proj2
             (C7_single_assignment inert_host Trait_Lower_js w_empty)))).
    + reflexivity.
    + discriminate.
  - split; [ reflexivity | ].
    apply (proj2 (proj2 (proj2
             (C7_single_assignment inert_host Trait_Lower_js w_callback)))).
    reflexivity.
  - apply (proj1 (C7_single_assignment inert_host Trait_Lower_js w_empty)).
Defined.

Lemma C8_registered_value_and_shape_witness :
  (Get w_callback "register_implementors" = VFunction 1%positive
   /\ invocations (effects (evaluate inert_host Part_000 w_callback)) =
        [(1%positive, [implementors_of Part_000])])
  /\ (ToBoolean (Get w_empty "register_implementors") = false
      /\ final (evaluate inert_host Part_000 w_empty) !! "pending_implementors" =
           Some (implementors_of Part_000)).
Proof.
  split.
  - split; [ reflexivity | ].
    apply (proj1 (C8_registered_value_and_shape inert_host Part_000 w_callback)).
    reflexivity.
  - split; [ reflexivity | ].
    apply (proj1 (proj2 (C8_registered_value_and_shape inert_host Part_000 w_empty))).
    reflexivity.
Defined.

Lemma C9_branches_exclusive_witness :
  (ToBoolean (Get w_callback "register_implementors") = true
   /\ final (evaluate inert_host Part_000 w_callback) !! "pending_implementors" =
      w_callback !! "pending_implementors")
  /\ (ToBoolean (Get w_empty "register_implementors") = false
      /\ invocations (effects (evaluate inert_host Part_000 w_empty)) = []).
Proof.
  split.
  - split; [ reflexivity | ].
    apply (proj1 (C9_branches_exclusive inert_host Part_000 w_callback)).
    + reflexivity.
    + intros fn args w0. reflexivity.
  - split; [ reflexivity | ].
    apply (proj2 (C9_branches_exclusive inert_host Part_000 w_empty)).
    reflexivity.
Defined.

Lemma C10_reevaluation_idempotent_witness :
  ToBoolean (Get w_empty "register_implementors") = false
  /\ Get (load_all inert_host [Trait_Lower_js; Trait_Lower_js] w_empty) "pending_implementors" =
     Get (load_all inert_host [Trait_Lower_js] w_empty) "pending_implementors".
Proof.
  split; [ reflexivity | ].
  apply (C10_reevaluation_idempotent inert_host Trait_Lower_js w_empty).
  reflexivity.
Defined.

(** * Further properties of the two files *)

(** ** Substrings and the checks on descriptors *)

Lemma prefix_sound (p s : string) :
  String.prefix p s = true -> exists post, s = p +:+ post.
Proof.
  revert s. induction p as [ | a p IH ]; intros s H.
  - exists s. reflexivity.
  - destruct s as [ | b s ]; [ discriminate H | ].
    cbn [String.prefix] in H.
    destruct (ascii_dec a b) as [ <- | ]; [ | discriminate H ].
    destruct (IH s H) as [post ->]. exists post. reflexivity.
Qed.

Lemma contains_sound (needle hay : string) :
  contains needle hay = true -> exists pre post, hay = pre +:+ needle +:+ post.
Proof.
  induction hay as [ | a hay IH ]; cbn [contains]; intros H;
    apply orb_prop in H as [H | H].
  - apply prefix_sound in H as [post ->]. exists EmptyString, post. reflexivity.
  - discriminate H.
  - apply prefix_sound in H as [post ->]. exists EmptyString, post. reflexivity.
  - destruct (IH H) as (pre & post & ->). exists (String a pre), post. reflexivity.
Qed.

Lemma each_starts_sound (c : ascii) (allowed : list string) (s : string) :
  each_starts c allowed s = true ->
  forall pre post, s = pre +:+ String c post ->
    exists p, In p allowed /\ String.prefix p (String c post) = true.
Proof.
  intros H pre. revert s H.
  induction pre as [ | a pre IH ]; intros s H post ->.
  - change (each_starts c allowed (String c post) = true) in H.
    cbn [each_starts] in H. rewrite Ascii.eqb_refl in H.
    apply andb_prop in H as [H _].
    apply existsb_exists in H as (p & Hp & Hpre). exists p. split; assumption.
  - change (each_starts c allowed (String a (pre +:+ String c post)) = true) in H.
    cbn [each_starts] in H. apply andb_prop in H as [_ H].
    apply (IH _ H post). reflexivity.
Qed.

Lemma descriptors_complete (v : value) (lib s : string) :
  lists v lib s -> In (lib, s) (descriptors v).
Proof.
  intros (ps & es & -> & Hp & He). unfold descriptors.
  apply in_flat_map. exists (lib, VArray es). split; [ exact Hp | ].
  cbn [fst snd]. apply in_flat_map. exists (VArray [VString s]).
  split; [ exact He | left; reflexivity ].
Qed.

Lemma check_descriptors (chk : string -> string -> bool) (v : value) :
  forallb (fun p => chk (fst p) (snd p)) (descriptors v) = true ->
  forall lib s, lists v lib s -> chk lib s = true.
Proof.
  intros H lib s L. rewrite forallb_forall in H.
  apply (H (lib, s)), descriptors_complete, L.
Qed.

Lemma memb_complete (x : value) (l : list value) : In x l -> memb x l = true.
Proof.
  induction l as [ | y l IH ]; [ intros [] | ].
  intros [ -> | H ]; cbn [memb].
  - rewrite value_eqb_refl. reflexivity.
  - rewrite (IH H). apply orb_true_r.
Qed.

Lemma nodupb_sound (l : list value) : nodupb l = true -> NoDup l.
Proof.
  induction l as [ | x l IH ]; intros H; [ constructor | ].
  cbn [nodupb] in H. apply andb_prop in H as [Hx Hl].
  apply NoDup_cons. split; [ | apply IH, Hl ].
  intros Hin. apply list_elem_of_In, memb_complete in Hin.
  rewrite Hin in Hx. discriminate Hx.
Qed.

(** ** Descriptors *)

Lemma closes_open (e : element) (open : list element) (ts : list tag) :
  closes (e :: open) ts -> closes open (Open e :: ts).
Proof.
  intros H. inversion H as [ | e0 open0 inside rest Hin Hrest ]; subst.
  inversion Hrest as [ ts0 Hb | e1 open1 inside1 rest1 Hin1 Hrest1 ]; subst.
  - apply closes_nil. apply balanced_element; assumption.
  - change (Open e :: inside ++ Close e :: inside1 ++ Close e1 :: rest1)
      with (Open e :: inside ++ (Close e :: inside1) ++ Close e1 :: rest1).
    rewrite app_assoc.
    change (Open e :: (inside ++ Close e :: inside1) ++ Close e1 :: rest1)
      with ((Open e :: inside ++ Close e :: inside1) ++ Close e1 :: rest1).
    apply closes_cons; [ | exact Hrest1 ].
    apply balanced_element; assumption.
Qed.

Lemma nested_sound (ts : list tag) (open : list element) :
  nested open ts = true -> closes open ts.
Proof.
  revert open. induction ts as [ | t ts IH ]; intros open H.
  - destruct open; [ | discriminate H ]. apply closes_nil, balanced_nil.
  - destruct t as [ e | e ]; cbn [nested] in H.
    + apply closes_open, IH, H.
    + destruct open as [ | e' open ]; [ discriminate H | ].
      apply andb_prop in H as [He H].
      assert (e = e') as <- by (destruct e, e'; first [ reflexivity | discriminate He ]).
      apply (closes_cons e open [] ts); [ apply balanced_nil | apply IH, H ].
Qed.

Lemma nested_balanced (ts : list tag) : nested [] ts = true -> balanced ts.
Proof.
  intros H. apply nested_sound in H. inversion H; assumption.
Qed.

(** The markup of every descriptor is well formed: a [<] only ever opens
    or closes an [a] or a [span] element, these tags are properly nested
    (each closing tag closes the innermost element still open, and no
    element is left open), so that opening and closing tags are equal in
    number, and a [&] only ever starts one of the character references
    [&lt;], [&gt;], [&amp;]. *)
Theorem descriptor_markup_well_formed (f : source_file) (lib s : string) :
  lists (implementors_of f) lib s ->
  (forall pre post, s = pre +:+ String "<" post ->
     exists tag, In tag allowed_tags /\ String.prefix tag (String "<" post) = true)
  /\ balanced (tags_of s)
  /\ (forall pre post, s = pre +:+ String "&" post ->
     exists ent, In ent allowed_entities /\ String.prefix ent (String "&" post) = true)
  /\ count_sub "<a " s = count_sub "</a>" s
  /\ count_sub "<span " s = count_sub "</span>" s.
Proof.
  intros L.
  assert (H : fragment_ok s = true).
  { revert lib s L. apply (check_descriptors (fun _ s => fragment_ok s)).
    destruct f; vm_compute; reflexivity. }
  unfold fragment_ok in H.
  apply andb_prop in H as [H Hnest].
  apply andb_prop in H as [H Hspan]. apply andb_prop in H as [H Ha].
  apply andb_prop in H as [Hlt Hamp].
  split; [ | split; [ | split; [ | split ] ] ].
  - apply each_starts_sound, Hlt.
  - apply nested_balanced, Hnest.
  - apply each_starts_sound, Hamp.
  - apply Nat.eqb_eq, Ha.
  - apply Nat.eqb_eq, Hspan.
Qed.

(** Every descriptor links into the library it is listed under: it has a
    link to a page below [lib/] and the tooltip of a struct or an enum whose
    path starts with [lib::]. *)
Theorem descriptor_links_into_its_library (f : source_file) (lib s : string) :
  lists (implementors_of f) lib s ->
  contains ("href=" +:+ dquote +:+ lib +:+ "/") s = true
  /\ (contains ("title=" +:+ dquote +:+ "struct " +:+ lib +:+ "::") s = true
      \/ contains ("title=" +:+ dquote +:+ "enum " +:+ lib +:+ "::") s = true).
Proof.
  intros L.
  assert (H : links_into lib s = true).
  { revert lib s L. apply (check_descriptors links_into).
    destruct f; vm_compute; reflexivity. }
  unfold links_into in H. apply andb_prop in H as [H1 H2].
  split; [ exact H1 | apply orb_prop, H2 ].
Qed.

(** Each file is the table of one trait: every descriptor of
    [trait.Lower.js] starts with [impl Lower for] followed by a link, and
    every descriptor of [part_000] links the trait
    [core::iter::traits::collect::IntoIterator] right before [ for ]. *)
Theorem descriptor_names_the_trait (f : source_file) (lib s : string) :
  lists (implementors_of f) lib s -> names_trait f s = true.
Proof.
  revert lib s. apply (check_descriptors (fun _ s => names_trait f s)).
  destruct f; vm_compute; reflexivity.
Qed.

(** No library lists the same entry twice. *)
Theorem no_entry_twice (f : source_file) (ps : list (string * value))
    (lib : string) (es : list value) :
  implementors_of f = VObject ps -> In (lib, VArray es) ps -> NoDup es.
Proof.
  intros E Hin.
  assert (H : arrays_nodup (implementors_of f) = true)
    by (destruct f; vm_compute; reflexivity).
  rewrite E in H. cbn [arrays_nodup] in H.
  rewrite forallb_forall in H. specialize (H _ Hin). cbn [snd] in H.
  apply nodupb_sound, H.
Qed.

(** ** Evaluation *)

Section Further.

Variable host : fn_ref -> list value -> window -> host_result.

Lemma load_effects_falsy (fs : list source_file) (w : window) :
  ToBoolean (Get w "register_implementors") = false ->
  load_effects host fs w =
    map (fun g => Assigned "pending_implementors" (implementors_of g)) fs.
Proof.
  revert w. induction fs as [ | g fs IH ]; intros w H; [ reflexivity | ].
  cbn [load_effects map]. rewrite (evaluate_falsy host g w H).
  cbn [effects final app]. f_equal.
  apply IH. rewrite Get_insert_ne by discriminate. exact H.
Qed.

(** With no callback installed, any number of files in a row leaves the
    global object as the last one alone would: [pending_implementors] holds
    the table of the last file and nothing else has changed; each file has
    made exactly its own assignment, in order. *)
Theorem no_callback_last_file_wins (fs : list source_file) (f : source_file)
    (w : window) :
  ToBoolean (Get w "register_implementors") = false ->
  load_all host (fs ++ [f]) w = <["pending_implementors" := implementors_of f]> w
  /\ load_effects host (fs ++ [f]) w =
       map (fun g => Assigned "pending_implementors" (implementors_of g)) (fs ++ [f]).
Proof.
  intros H. split; [ | apply load_effects_falsy, H ].
  revert w H. induction fs as [ | g fs IH ]; intros w H.
  - apply load_one_falsy, H.
  - change ((g :: fs) ++ [f]) with (g :: (fs ++ [f])). cbn [load_all].
    rewrite (evaluate_falsy host g w H). cbn [final].
    rewrite IH by (rewrite Get_insert_ne by discriminate; exact H).
    apply insert_insert_eq.
Qed.

(** While [window.register_implementors] holds a truthy value that cannot
    be called, files have no effect at all, however many are evaluated. *)
Theorem not_callable_files_change_nothing (fs : list source_file) (w : window) :
  ToBoolean (Get w "register_implementors") = true ->
  IsCallable (Get w "register_implementors") = false ->
  load_all host fs w = w /\ load_effects host fs w = [].
Proof.
  intros T C. induction fs as [ | g fs [IH1 IH2] ]; [ split; reflexivity | ].
  cbn [load_all load_effects]. rewrite (evaluate_not_callable host g w T C).
  cbn [final effects app]. split; assumption.
Qed.

(** With the callback installed, and as long as the callback leaves itself
    installed, the files of a sequence register one table each, their own,
    in the order of the sequence, and assign nothing. *)
Theorem callback_registers_each_file_in_order (fn : fn_ref)
    (fs : list source_file) (w : window) :
  (forall args w0,
     Get w0 "register_implementors" = VFunction fn ->
     Get (host_after (host fn args w0)) "register_implementors" = VFunction fn) ->
  Get w "register_implementors" = VFunction fn ->
  load_effects host fs w = map (fun g => Invoked fn [implementors_of g]) fs.
Proof.
  intros Hkeep. revert w. induction fs as [ | g fs IH ]; intros w E; [ reflexivity | ].
  cbn [load_effects map]. rewrite (evaluate_function host g w fn E).
  cbn [effects final app]. f_equal. apply IH, Hkeep, E.
Qed.

(** What a file stashes is truthy and is not a function, whatever the
    table holds: a later test of [window.pending_implementors] finds it. *)
Theorem stashed_table_is_truthy (f : source_file) (w : window) :
  ToBoolean (Get w "register_implementors") = false ->
  ToBoolean (Get (final (evaluate host f w)) "pending_implementors") = true
  /\ IsCallable (Get (final (evaluate host f w)) "pending_implementors") = false.
Proof.
  intros H. rewrite (evaluate_falsy host f w H). cbn [final].
  rewrite Get_insert_eq. destruct f; split; reflexivity.
Qed.


(** The one error of a file's own.  The call expression raises its
    TypeError (the callee is not a function) exactly when
    [window.register_implementors] is truthy and not callable; the error
    is about the value found there, and then nothing has been called or
    assigned and the global object is as it was.  Exceptions raised inside
    a function that is called, TypeErrors of its own included, are not
    this error: they are [Raised]. *)
Theorem type_error_iff (f : source_file) (w : window) (v : value) :
  (outcome (evaluate host f w) = Throw (TypeError_not_a_function v) <->
     v = Get w "register_implementors" /\ ToBoolean v = true /\ IsCallable v = false)
  /\ (outcome (evaluate host f w) = Throw (TypeError_not_a_function v) ->
      effects (evaluate host f w) = [] /\ final (evaluate host f w) = w).
Proof.
  assert (A : outcome (evaluate host f w) = Throw (TypeError_not_a_function v) ->
              v = Get w "register_implementors" /\ ToBoolean v = true
              /\ IsCallable v = false).
  { destruct (ToBoolean (Get w "register_implementors")) eqn:T.
    - destruct (IsCallable (Get w "register_implementors")) eqn:C.
      + destruct (Get w "register_implementors") eqn:E; try discriminate C.
        rewrite (evaluate_function host f w _ E). cbn [outcome].
        destruct (host_outcome_of (host fn [implementors_of f] w)); discriminate.
      + rewrite (evaluate_not_callable host f w T C). cbn [outcome].
        intros H. injection H as <-. split; [ reflexivity | split; assumption ].
    - rewrite (evaluate_falsy host f w T). discriminate. }
  split; [ split; [ exact A | ] | ].
  - intros (-> & T & C). rewrite (evaluate_not_callable host f w T C). reflexivity.
  - intros H. destruct (A H) as (-> & T & C).
    rewrite (evaluate_not_callable host f w T C). split; reflexivity.
Qed.

(** A file catches nothing: it raises an exception of the host exactly when
    [window.register_implementors] is a function whose call, with the
    table as argument and on the global object as the file found it,
    raises that exception. *)
Theorem callback_exception_propagates (f : source_file) (w : window) (e : value) :
  outcome (evaluate host f w) = Throw (Raised e) <->
    exists fn,
      Get w "register_implementors" = VFunction fn
      /\ host_outcome_of (host fn [implementors_of f] w) = Raises e.
Proof.
  split.
  - destruct (ToBoolean (Get w "register_implementors")) eqn:T.
    + destruct (IsCallable (Get w "register_implementors")) eqn:C.
      * destruct (Get w "register_implementors") eqn:E; try discriminate C.
        rewrite (evaluate_function host f w _ E). cbn [outcome].
        destruct (host_outcome_of (host fn [implementors_of f] w)) eqn:R;
          [ discriminate | ].
        intros H. injection H as <-. exists fn. split; [ reflexivity | exact R ].
      * rewrite (evaluate_not_callable host f w T C). discriminate.
    + rewrite (evaluate_falsy host f w T). discriminate.
  - intros (fn & E & R). rewrite (evaluate_function host f w _ E).
    cbn [outcome]. rewrite R. reflexivity.
Qed.

(** A file never hands over what another file stashed.  When [f1] is
    evaluated with no callback, the callback [fn] is installed afterwards
    and [f2] is evaluated, [f2] calls [fn] once with its own table only;
    the table of [f1] is still in [pending_implementors] when [fn] starts,
    and the global object is left as [fn] leaves it. *)
Theorem late_callback_gets_own_table_only (f1 f2 : source_file) (fn : fn_ref)
    (w : window) :
  ToBoolean (Get w "register_implementors") = false ->
  let w1 := <["register_implementors" := VFunction fn]> (final (evaluate host f1 w)) in
  Get w1 "pending_implementors" = implementors_of f1
  /\ effects (evaluate host f2 w1) = [Invoked fn [implementors_of f2]]
  /\ final (evaluate host f2 w1) = host_after (host fn [implementors_of f2] w1).
Proof.
  intros H w1.
  assert (E : Get w1 "register_implementors" = VFunction fn)
    by apply Get_insert_eq.
  split; [ | split ].
  - unfold w1. rewrite (evaluate_falsy host f1 w H). cbn [final].
    rewrite Get_insert_ne by discriminate. apply Get_insert_eq.
  - rewrite (evaluate_function host f2 w1 fn E). reflexivity.
  - rewrite (evaluate_function host f2 w1 fn E). reflexivity.
Qed.

End Further.

(** ** The further theorems at concrete states *)

Ltac first_listed :=
  unfold lists; eexists; eexists;
  split; [ reflexivity | split; [ left; reflexivity | left; reflexivity ] ].

Lemma descriptor_markup_well_formed_witness :
  lists (implementors_of Part_000) "cranelift_codegen"
        (first_descriptor (implementors_of Part_000))
  /\ balanced (tags_of (first_descriptor (implementors_of Part_000)))
  /\ count_sub "<a " (first_descriptor (implementors_of Part_000)) =
     count_sub "</a>" (first_descriptor (implementors_of Part_000)).
Proof.
  split; [ first_listed | ].
  split; apply (descriptor_markup_well_formed Part_000 "cranelift_codegen");
    first_listed.
Defined.

Lemma descriptor_links_into_its_library_witness :
  lists (implementors_of Trait_Lower_js) "component_test_util"
        (first_descriptor (implementors_of Trait_Lower_js))
  /\ contains ("href=" +:+ dquote +:+ "component_test_util" +:+ "/")
       (first_descriptor (implementors_of Trait_Lower_js)) = true.
Proof.
  split; [ first_listed | ].
  apply (descriptor_links_into_its_library Trait_Lower_js "component_test_util").
  first_listed.
Defined.

Lemma descriptor_names_the_trait_witness :
  lists (implementors_of Trait_Lower_js) "component_test_util"
        (first_descriptor (implementors_of Trait_Lower_js))
  /\ names_trait Trait_Lower_js (first_descriptor (implementors_of Trait_Lower_js)) = true.
Proof.
  split; [ first_listed | ].
  apply (descriptor_names_the_trait Trait_Lower_js "component_test_util").
  first_listed.
Defined.

Lemma no_entry_twice_witness :
  exists ps es,
    implementors_of Trait_Lower_js = VObject ps
    /\ In ("component_test_util", VArray es) ps
    /\ length es = 2
    /\ NoDup es.
Proof.
  eexists. eexists. split; [ reflexivity | ]. split; [ left; reflexivity | ].
  split; [ reflexivity | ].
  eapply (no_entry_twice Trait_Lower_js); [ reflexivity | left; reflexivity ].
Defined.

Lemma no_callback_last_file_wins_witness :
  ToBoolean (Get w_empty "register_implementors") = false
  /\ load_all inert_host ([Trait_Lower_js; Part_000] ++ [Trait_Lower_js]) w_empty =
       <["pending_implementors" := implementors_of Trait_Lower_js]> w_empty.
Proof.
  split; [ reflexivity | ].
  apply (no_callback_last_file_wins inert_host [Trait_Lower_js; Part_000]
           Trait_Lower_js w_empty).
  reflexivity.
Defined.

Lemma not_callable_files_change_nothing_witness :
  ToBoolean (Get w_not_callable "register_implementors") = true
  /\ IsCallable (Get w_not_callable "register_implementors") = false
  /\ load_all inert_host [Trait_Lower_js; Part_000] w_not_callable = w_not_callable.
Proof.
  split; [ reflexivity | ]. split; [ reflexivity | ].
  apply (not_callable_files_change_nothing inert_host [Trait_Lower_js; Part_000]
           w_not_callable); reflexivity.
Defined.

Lemma callback_registers_each_file_in_order_witness :
  Get w_callback "register_implementors" = VFunction 1%positive
  /\ load_effects inert_host [Trait_Lower_js; Part_000] w_callback =
       [Invoked 1%positive [implementors_of Trait_Lower_js];
        Invoked 1%positive [implementors_of Part_000]].
Proof.
  split; [ reflexivity | ].
  apply (callback_registers_each_file_in_order inert_host 1%positive
           [Trait_Lower_js; Part_000] w_callback).
  - intros args w0 H. exact H.
  - reflexivity.
Defined.

Lemma stashed_table_is_truthy_witness :
  ToBoolean (Get w_empty "register_implementors") = false
  /\ ToBoolean (Get (final (evaluate inert_host Part_000 w_empty))
                    "pending_implementors") = true.
Proof.
  split; [ reflexivity | ].
  apply (stashed_table_is_truthy inert_host Part_000 w_empty). reflexivity.
Defined.


Lemma type_error_iff_witness :
  (VBool true = Get w_not_callable "register_implementors"
   /\ ToBoolean (VBool true) = true /\ IsCallable (VBool true) = false)
  /\ outcome (evaluate inert_host Part_000 w_not_callable) =
       Throw (TypeError_not_a_function (VBool true))
  /\ effects (evaluate inert_host Part_000 w_not_callable) = []
  /\ final (evaluate inert_host Part_000 w_not_callable) = w_not_callable.
Proof.
  assert (H : outcome (evaluate inert_host Part_000 w_not_callable) =
              Throw (TypeError_not_a_function (VBool true))).
  { apply (proj2 (proj1 (type_error_iff inert_host Part_000 w_not_callable
                           (VBool true)))).
    split; [ reflexivity | split; reflexivity ]. }
  split; [ split; [ reflexivity | split; reflexivity ] | ].
  split; [ exact H | ].
  apply (proj2 (type_error_iff inert_host Part_000 w_not_callable (VBool true))), H.
Defined.

Lemma callback_exception_propagates_witness :
  Get w_callback "register_implementors" = VFunction 1%positive
  /\ outcome (evaluate raising_host Trait_Lower_js w_callback) =
       Throw (Raised (VString "boom")).
Proof.
  split; [ reflexivity | ].
  apply (proj2 (callback_exception_propagates raising_host Trait_Lower_js
                  w_callback (VString "boom"))).
  exists 1%positive. split; reflexivity.
Defined.

Lemma late_callback_gets_own_table_only_witness :
  ToBoolean (Get w_empty "register_implementors") = false
  /\ effects (evaluate inert_host Part_000
                (<["register_implementors" := VFunction 1%positive]>
                   (final (evaluate inert_host Trait_Lower_js w_empty)))) =
       [Invoked 1%positive [implementors_of Part_000]].
Proof.
  split; [ reflexivity | ].
  apply (late_callback_gets_own_table_only inert_host Trait_Lower_js Part_000
           1%positive w_empty).
  reflexivity.
Defined.
